(** * OneGraph client (src/oneGraphClient.ts): a shallow embedding

    The module is a set of thin asynchronous wrappers: each builds the
    variables of one GraphQL operation, hands them to the generated client,
    and unwraps the answer with optional chaining.  The embedding keeps that
    shape: tree-shaped JavaScript values, the [?.] and [||] operators, a
    small state-and-exception monad whose state is the chronological list of
    effects (RPC calls, HTTP requests, console lines), and one definition per
    exported function, under the name it has in the source. *)

From Stdlib Require Import PrimFloat.
From stdpp Require Import gmap strings list.

Open Scope string_scope.
Open Scope Z_scope.
Open Scope list_scope.

(** ** JavaScript values

    What [JSON.parse] and the transport deliver is tree-shaped, so the data
    flowing through the RPC wrappers is an inductive tree.  A number is a
    binary64 float, as in the language: zero (of either sign) and NaN are
    the falsy ones.  An object is its list of own properties in insertion
    order. *)

Definition number : Set := PrimFloat.float.

(** The numbers [||] and [if] take as false: [0], [-0] and [NaN]. *)
Definition falsy_number (n : number) : bool :=
  PrimFloat.is_zero n || PrimFloat.is_nan n.

#[local] Set Warnings "-register-all".

Inductive value : Type :=
| VUndefined
| VNull
| VBool (b : bool)
| VNum (n : number)
| VStr (s : string)
| VArr (items : list value)
| VObj (props : list (string * value)).

(** Own-property lookup in a property list; a missing key reads as
    [undefined]. *)
Fixpoint lookup_prop (k : string) (props : list (string * value)) : value :=
  match props with
  | [] => VUndefined
  | (k', v) :: rest => if String.eqb k k' then v else lookup_prop k rest
  end.

(** [v.k] for a [v] already known not to be [null]/[undefined].  On
    primitives and arrays every property name the module reads
    ([data], [oneGraph], [events], ...) is missing, hence [undefined]. *)
Definition prop (v : value) (k : string) : value :=
  match v with
  | VObj props => lookup_prop k props
  | _ => VUndefined
  end.

(** Errors that can be thrown (or that a promise can reject with). *)
Inductive exn : Type :=
| TypeError (msg : string)
| SyntaxError (msg : string)
| FetchError (msg : string)
| RangeError (msg : string)
| OtherError (msg : string).

Inductive outcome (A : Type) : Type :=
| Returns (a : A)
| Throws (e : exn).
Arguments Returns {A} a.
Arguments Throws {A} e.

(** [v.k]: reading a property of [null] or [undefined] throws. *)
Definition get (v : value) (k : string) : outcome value :=
  match v with
  | VUndefined => Throws (TypeError ("Cannot read properties of undefined (reading '" +:+ k +:+ "')"))
  | VNull => Throws (TypeError ("Cannot read properties of null (reading '" +:+ k +:+ "')"))
  | _ => Returns (prop v k)
  end.

(** [v?.k]: optional chaining short-circuits to [undefined]. *)
Definition optget (v : value) (k : string) : value :=
  match v with
  | VUndefined | VNull => VUndefined
  | _ => prop v k
  end.

Notation "v ?. k" := (optget v k) (at level 2, left associativity, format "v ?. k").

(** JavaScript truthiness. *)
Definition truthy (v : value) : bool :=
  match v with
  | VUndefined | VNull => false
  | VBool b => b
  | VNum n => negb (falsy_number n)
  | VStr s => negb (String.eqb s "")
  | VArr _ | VObj _ => true
  end.

(** [a || b]. *)
Definition or_else (a b : value) : value := if truthy a then a else b.
Infix "|||" := or_else (at level 50, left associativity).

(** An optional numeric field of an options object. *)
Definition of_optional_number (o : option number) : value :=
  match o with
  | Some n => VNum n
  | None => VUndefined
  end.

(** ** The collaborators and the effect trace *)

(** The operations of the generated client that the module calls. *)
Inductive Operation : Type :=
| fetchPersistedQueryQuery
| fetchCLISessionQuery
| executeCreateCLISessionMutation
| executeUpdateCLISessionMetadataMutation
| executeAckCLISessionEventMutation
| executeCreatePersistedQueryMutation
| fetchAppSchemaQuery
| executeUpsertAppForSiteMutation
| executeCreateNewSchemaMutation
| executeMarkCLISessionActiveHeartbeat
| executeMarkCLISessionInactive.

(** One call of the generated client: the operation, its variables object
    and the optional routing context (second argument). *)
Record Request : Type := mkRequest {
  operation : Operation;
  variables : list (string * value);
  context : option (list (string * value))
}.

(** The envelope every operation of the generated client resolves to. *)
Record RpcResult : Type := mkRpcResult {
  data : value;
  errors : value
}.

(** The envelope as the JavaScript object it is. *)
Definition envelope (r : RpcResult) : value :=
  VObj [("data", data r); ("errors", errors r)].

(** What the raw HTTP path of the schema fetch can do: [fetch] rejects,
    [response.text()] rejects, or a body text arrives. *)
Inductive HttpOutcome : Type :=
| FetchRejects (e : exn)
| TextRejects (e : exn)
| Body (text : string).

Inductive Effect : Type :=
| Rpc (req : Request)
| HttpGet (url : string)
| ConsoleError (line : string)
| ConsoleLog (line : string).

Definition trace := list Effect.

(** ** The monad: effect trace plus exceptions *)

Definition M (A : Type) : Type := trace -> outcome A * trace.

Definition ret {A} (a : A) : M A := fun t => (Returns a, t).

Definition bind {A B} (m : M A) (k : A -> M B) : M B :=
  fun t =>
    match m t with
    | (Returns a, t') => k a t'
    | (Throws e, t') => (Throws e, t')
    end.

Definition lift {A} (o : outcome A) : M A := fun t => (o, t).

(** [try { body } catch (error) { handler }] *)
Definition try_catch {A} (body : M A) (handler : exn -> M A) : M A :=
  fun t =>
    match body t with
    | (Returns a, t') => (Returns a, t')
    | (Throws e, t') => handler e t'
    end.

Definition emit (e : Effect) : M unit := fun t => (Returns tt, t ++ [e]).

#[global] Instance M_ret : MRet M := @ret.
#[global] Instance M_bind : MBind M := fun A B k m => bind m k.

Definition ONEDASH_APP_ID : string := "0b066ba6-ed39-4db8-a497-ba0be34d5b2a".

(** Modelled from the spec: the logging sink [internalConsole]
    (./internalConsole is not among the sources) takes one entry per call,
    fire-and-forget, and returns nothing that is consumed. *)
Module internalConsole.
Definition error (line : string) : M unit := emit (ConsoleError line).
Definition log (line : string) : M unit := emit (ConsoleLog line).
End internalConsole.

(** A [string[]] argument as the array value sent on the wire. *)
Definition strings (l : list string) : value := VArr (VStr <$> l).

Record CliSessionOptions : Type := mkCliSessionOptions {
  appId : string;
  authToken : string;
  sessionId : string;
  desiredEventCount : option number
}.

Record AckInput : Type := mkAckInput {
  ack_appId : string;
  ack_authToken : string;
  ack_sessionId : string;
  eventIds : list string
}.

Record PersistedQueryInput : Type := mkPersistedQueryInput {
  pq_appId : string;
  description : string;
  document : string;
  tags : list string
}.

Section Client.

(** The generated client (./generatedOneGraphClient) is a collaborator:
    every call resolves to an envelope [{data, errors}] (transport errors
    come back inline, they are not thrown), which may depend on everything
    that happened before. *)
Variable GeneratedClient : trace -> Request -> RpcResult.

(** node-fetch, per URL (and history). *)
Variable fetch : trace -> string -> HttpOutcome.

(** [JSON.parse(text)]: a value, or a thrown [SyntaxError]. *)
Variable JSON_parse : string -> outcome value.

(** [JSON.stringify(error, null, 2)] of a caught error, as the template
    literal of the log line takes it: a text, or a thrown [TypeError] when
    the value cannot be serialised (it refers to itself, it holds a
    BigInt). *)
Variable JSON_stringify : exn -> outcome string.

(** [buildClientSchema] of the graphql package. *)
Variable GraphQLSchema : Type.
Variable buildClientSchema : value -> outcome GraphQLSchema.

Definition call (op : Operation) (vars : list (string * value))
    (ctx : option (list (string * value))) : M RpcResult :=
  fun t =>
    let req := mkRequest op vars ctx in
    (Returns (GeneratedClient t req), t ++ [Rpc req]).

(** [await fetch(url, ...)] followed by [await response.text()]. *)
Definition fetch_text (url : string) : M string :=
  fun t =>
    match fetch t url with
    | FetchRejects e => (Throws e, t ++ [HttpGet url])
    | TextRejects e => (Throws e, t ++ [HttpGet url])
    | Body text => (Returns text, t ++ [HttpGet url])
    end.

Definition schema_url (appId : string) (enabledServices : list string) : string :=
  "https://serve.onegraph.com/schema?app_id=" +:+ appId +:+ "&services="
    +:+ String.concat "," enabledServices.

Definition fetchOneGraphSchemaJson (appId : string)
    (enabledServices : list string) : M value :=
  let url := schema_url appId enabledServices in
  try_catch
    (text ← fetch_text url;
     lift (JSON_parse text))
    (fun error =>
       text ← lift (JSON_stringify error);
       internalConsole.error ("Error fetching schema: " +:+ text);;
       mret VUndefined).

Definition fetchOneGraphSchema (appId : string)
    (enabledServices : list string) : M GraphQLSchema :=
  result ← fetchOneGraphSchemaJson appId enabledServices;
  result_data ← lift (get result "data");
  lift (buildClientSchema result_data).

Definition fetchPersistedQuery (authToken appId docId : string) : M value :=
  response ← call fetchPersistedQueryQuery
    [("nfToken", VStr authToken); ("appId", VStr appId); ("id", VStr docId)]
    (Some [("siteId", VStr ONEDASH_APP_ID)]);
  let persistedQuery := (data response)?."oneGraph"?."persistedQuery" in
  mret persistedQuery.

Definition fetchCliSession (options : CliSessionOptions) : M value :=
  let desiredEventCount :=
    of_optional_number (desiredEventCount options) ||| VNum 1%float in
  next ← call fetchCLISessionQuery
    [("nfToken", VStr (authToken options));
     ("sessionId", VStr (sessionId options));
     ("first", desiredEventCount ||| VNum 1000%float)]
    (Some [("siteId", VStr (appId options))]);
  let session := (data next)?."oneGraph"?."netlifyCliSession" ||| VArr [] in
  mret (VObj [("session", session); ("errors", errors next)]).

Definition fetchCliSessionEvents (appId authToken sessionId : string) : M value :=
  let desiredEventCount := 1000%float in
  next ← fetchCliSession
    (mkCliSessionOptions appId authToken sessionId (Some desiredEventCount));
  next_errors ← lift (get next "errors");
  if truthy next_errors then mret next
  else
    next_session ← lift (get next "session");
    let events := next_session?."events" ||| VArr [] in
    mret (VObj [("events", events)]).

Definition createCLISession (netlifyToken appId name : string)
    (metadata : value) : M value :=
  let payload :=
    [("nfToken", VStr netlifyToken); ("appId", VStr appId);
     ("name", VStr name); ("metadata", metadata)] in
  result ← call executeCreateCLISessionMutation payload
    (Some [("siteId", VStr appId)]);
  let session := (data result)?."oneGraph"?."createNetlifyCliSession"?."session" in
  mret session.

Definition updateCLISessionMetadata (netlifyToken appId sessionId : string)
    (metadata : value) : M value :=
  result ← call executeUpdateCLISessionMetadataMutation
    [("nfToken", VStr netlifyToken); ("sessionId", VStr sessionId);
     ("metadata", metadata)]
    (Some [("siteId", VStr appId)]);
  let session := (data result)?."oneGraph"?."updateNetlifyCliSession"?."session" in
  mret session.

Definition ackCLISessionEvents (input : AckInput) : M value :=
  result ← call executeAckCLISessionEventMutation
    [("nfToken", VStr (ack_authToken input));
     ("sessionId", VStr (ack_sessionId input));
     ("eventIds", strings (eventIds input))]
    (Some [("siteId", VStr (ack_appId input))]);
  let events := (data result)?."oneGraph"?."ackNetlifyCliEvents" in
  mret events.

Definition createPersistedQuery (netlifyToken : string)
    (input : PersistedQueryInput) : M value :=
  result ← call executeCreatePersistedQueryMutation
    [("nfToken", VStr netlifyToken); ("appId", VStr (pq_appId input));
     ("query", VStr (document input)); ("tags", strings (tags input));
     ("description", VStr (description input))]
    (Some [("siteId", VStr (pq_appId input))]);
  let persistedQuery :=
    (data result)?."oneGraph"?."createPersistedQuery"?."persistedQuery" in
  mret persistedQuery.

Definition fetchAppSchema (authToken siteId : string) : M value :=
  result ← call fetchAppSchemaQuery
    [("nfToken", VStr authToken); ("appId", VStr siteId)]
    (Some [("siteId", VStr siteId)]);
  mret (data result)?."oneGraph"?."app"?."graphQLSchema".

Definition upsertAppForSite (authToken siteId : string) : M value :=
  result ← call executeUpsertAppForSiteMutation
    [("nfToken", VStr authToken); ("siteId", VStr siteId)]
    (Some [("siteId", VStr ONEDASH_APP_ID)]);
  mret (data result)?."oneGraph"?."upsertAppForNetlifySite"?."app".

(** [input] is the object of type [CreateNewSchemaMutationInput["input"]]. *)
Definition createNewAppSchema (nfToken : string)
    (input : list (string * value)) : M value :=
  result ← call executeCreateNewSchemaMutation
    [("nfToken", VStr nfToken); ("input", VObj input)]
    (Some [("siteId", lookup_prop "appId" input)]);
  mret (data result)?."oneGraph"?."createGraphQLSchema"?."graphqlSchema".

Definition ensureAppForSite (authToken siteId : string) : M value :=
  upsertResult ← call executeUpsertAppForSiteMutation
    [("nfToken", VStr authToken); ("siteId", VStr siteId)]
    None;
  let appId :=
    (data upsertResult)?."oneGraph"?."upsertAppForNetlifySite"?."app"?."id" in
  schema ← call fetchAppSchemaQuery
    [("nfToken", VStr authToken); ("appId", appId)]
    None;
  if negb (truthy (envelope schema)) then
    internalConsole.log "Creating new empty default GraphQL schema for site....";;
    call executeCreateNewSchemaMutation
      [("nfToken", VStr authToken);
       ("input", VObj [("appId", VStr siteId);
                       ("enabledServices", strings ["ONEGRAPH"]);
                       ("setAsDefaultForApp", VBool true)])]
      None;;
    mret VUndefined
  else mret VUndefined.

Definition fetchEnabledServices (authToken appId : string) : M value :=
  appSchemaResult ← call fetchAppSchemaQuery
    [("nfToken", VStr authToken); ("appId", VStr appId)]
    None;
  mret (data appSchemaResult)?."oneGraph"?."app"?."graphQLSchema"?."services".

Definition executeMarkCliSessionActiveHeartbeat
    (authToken appId sessionId : string) : M value :=
  result ← call executeMarkCLISessionActiveHeartbeat
    [("nfToken", VStr authToken); ("id", VStr sessionId)]
    (Some [("siteId", VStr appId)]);
  let session := (data result)?."oneGraph"?."updateNetlifyCliSession"?."session" in
  mret (VObj [("errors", errors result); ("data", session)]).

Definition executeMarkCliSessionInactive
    (authToken appId sessionId : string) : M value :=
  result ← call executeMarkCLISessionInactive
    [("nfToken", VStr authToken); ("id", VStr sessionId)]
    (Some [("siteId", VStr appId)]);
  let session := (data result)?."oneGraph"?."updateNetlifyCliSession"?."session" in
  mret (VObj [("errors", errors result); ("data", session)]).

End Client.

(** ** friendlyEventName over in-memory objects

    [friendlyEventName] takes an arbitrary [Record<string, any>]: an object
    in memory, whose [payload] may point to any object, itself included.
    Objects are therefore kept in a store and referred to by location, and
    the recursion of the source is bounded by fuel (the depth of the call
    stack); [None] means the fuel ran out before the call returned, which
    is where the runtime throws its [RangeError]
    ([friendlyEventName_on_stack]).

    The store holds plain data objects: their properties are primitives
    and references to such objects.  Functions, arrays, symbols and bigints
    are not represented. *)

Module ObjectGraph.

Definition loc := positive.

Inductive jsvalue : Type :=
| Undefined
| Null
| Bool (b : bool)
| Num (n : number)
| Str (s : string)
| Ref (l : loc).

(** A store maps a location to the own properties of the (plain) object
    that lives there. *)
Definition store := gmap loc (gmap string jsvalue).

(** [Number::toString] of the runtime, which a template literal applies to
    a number; it is total. *)
Class NumberPrinter := NumberToString : number → string.

(** [event.k] for an [event] that is neither [null] nor [undefined]; a
    property that is not there reads as [undefined], as does every
    property of a primitive. *)
Definition read (st : store) (event : jsvalue) (k : string) : jsvalue :=
  match event with
  | Ref l => default Undefined (obj ← st !! l; obj !! k)
  | _ => Undefined
  end.

(** [const { __typename, payload } = event;] *)
Definition destructure (st : store) (event : jsvalue)
    : outcome (jsvalue * jsvalue) :=
  match event with
  | Undefined =>
      Throws (TypeError "Cannot destructure property '__typename' of 'event' as it is undefined.")
  | Null =>
      Throws (TypeError "Cannot destructure property '__typename' of 'event' as it is null.")
  | _ => Returns (read st event "__typename", read st event "payload")
  end.

(** [v === s] for a string literal [s], as the [switch] compares. *)
Definition strict_eq (v : jsvalue) (s : string) : bool :=
  match v with
  | Str s' => String.eqb s' s
  | _ => false
  end.

(** Does the object at [l] have an own property [k]? *)
Definition has_own (st : store) (l : loc) (k : string) : bool :=
  match obj ← st !! l; obj !! k with
  | Some _ => true
  | None => false
  end.

(** The string a template literal puts in for [${v}].  A plain object is
    converted through its [toString]: the inherited one prints
    [[object Object]]; an own [toString] property hides it, and since it
    holds data, which cannot be called (and [valueOf], own or inherited,
    gives no primitive either), the conversion throws. *)
Definition ToString {printer : NumberPrinter} (st : store) (v : jsvalue)
    : outcome string :=
  match v with
  | Undefined => Returns "undefined"
  | Null => Returns "null"
  | Bool true => Returns "true"
  | Bool false => Returns "false"
  | Num n => Returns (NumberToString n)
  | Str s => Returns s
  | Ref l =>
      if has_own st l "toString" then
        Throws (TypeError "Cannot convert object to primitive value")
      else Returns "[object Object]"
  end.

Definition TestEvent : string := "OneGraphNetlifyCliSessionTestEvent".
Definition GenerateHandlerEvent : string :=
  "OneGraphNetlifyCliSessionGenerateHandlerEvent".
Definition PersistedLibraryUpdatedEvent : string :=
  "OneGraphNetlifyCliSessionPersistedLibraryUpdatedEvent".

(** [`Unrecognized event (${__typename})`] *)
Definition unrecognized {printer : NumberPrinter} (st : store)
    (__typename : jsvalue) : outcome string :=
  match ToString st __typename with
  | Returns text => Returns ("Unrecognized event (" +:+ text +:+ ")")
  | Throws e => Throws e
  end.

Fixpoint friendlyEventName {printer : NumberPrinter}
    (fuel : nat) (st : store) (event : jsvalue) : option (outcome string) :=
  match fuel with
  | O => None
  | S fuel =>
      match destructure st event with
      | Throws e => Some (Throws e)
      | Returns (__typename, payload) =>
          if strict_eq __typename TestEvent then
            friendlyEventName fuel st payload
          else if strict_eq __typename GenerateHandlerEvent then
            Some (Returns "Generate handler as Netlify function ")
          else if strict_eq __typename PersistedLibraryUpdatedEvent then
            Some (Returns "Sync Netlify Graph operations library")
          else
            Some (unrecognized st __typename)
      end
  end.

(** The call on a runtime whose stack has room for [depth] nested calls of
    the function: when they are used up the runtime throws. *)
Definition friendlyEventName_on_stack {printer : NumberPrinter}
    (depth : nat) (st : store) (event : jsvalue) : outcome string :=
  match friendlyEventName depth st event with
  | Some o => o
  | None => Throws (RangeError "Maximum call stack size exceeded")
  end.

(** What one call answers on an event that is not a wrapper, from its
    [__typename]: the cases of the [switch] other than the first. *)
Definition label_of {printer : NumberPrinter} (st : store)
    (__typename : jsvalue) : outcome string :=
  if strict_eq __typename GenerateHandlerEvent then
    Returns "Generate handler as Netlify function "
  else if strict_eq __typename PersistedLibraryUpdatedEvent then
    Returns "Sync Netlify Graph operations library"
  else unrecognized st __typename.

(** The call returns the string [s]. *)
Definition returns {printer : NumberPrinter}
    (st : store) (event : jsvalue) (s : string) : Prop :=
  ∃ fuel, friendlyEventName fuel st event = Some (Returns s).

(** The call completes with outcome [o] (a string or a thrown error). *)
Definition completes {printer : NumberPrinter}
    (st : store) (event : jsvalue) (o : outcome string) : Prop :=
  ∃ fuel, friendlyEventName fuel st event = Some o.

(** [wraps st n event inner]: [event] is [n] test-event wrappers around
    [inner], following the [payload] properties. *)
Inductive wraps (st : store) : nat → jsvalue → jsvalue → Prop :=
| wraps_here v : wraps st 0 v v
| wraps_step n w inner :
    read st w "__typename" = Str TestEvent →
    wraps st n (read st w "payload") inner →
    wraps st (S n) w inner.

(** An object that is its own payload:
    [const e = { __typename: "OneGraphNetlifyCliSessionTestEvent" }; e.payload = e]. *)
Definition cyclic_store : store :=
  {[ 1%positive := {[ "__typename" := Str TestEvent; "payload" := Ref 1%positive ]} ]}.

(** A wrapper that was sent without a payload. *)
Definition bare_wrapper_store : store :=
  {[ 1%positive := {[ "__typename" := Str TestEvent ]} ]}.

(** An event whose [__typename] is an object that cannot be converted to a
    string: [{ __typename: { toString: null } }], the event at location 1. *)
Definition unprintable_kind_store : store :=
  {[ 1%positive := {[ "__typename" := Ref 2%positive ]};
     2%positive := {[ "toString" := Null ]} ]}.

(** [n] wrappers around an object whose kind is [kind], at locations
    [n+1], ..., [1]. *)
Fixpoint nested_store (n : nat) (kind : string) : store :=
  match n with
  | O => {[ 1%positive := {[ "__typename" := Str kind ]} ]}
  | S m =>
      <[ Pos.of_succ_nat n :=
           {[ "__typename" := Str TestEvent;
              "payload" := Ref (Pos.of_succ_nat m) ]} ]>
        (nested_store m kind)
  end.

End ObjectGraph.

(** ** Vocabulary of the statements *)

(** The same collaborator, except that every envelope carries [e] as its
    [errors]. *)
Definition with_errors (client : trace → Request → RpcResult) (e : value)
    : trace → Request → RpcResult :=
  fun t req => mkRpcResult (data (client t req)) e.

(** [occurs_in x v]: the value [x] is [v] or sits somewhere inside it. *)
Inductive occurs_in (x : value) : value → Prop :=
| occurs_here : occurs_in x x
| occurs_item items v : v ∈ items → occurs_in x v → occurs_in x (VArr items)
| occurs_prop props k v :
    (k, v) ∈ props → occurs_in x v → occurs_in x (VObj props).

(** The lines written to [internalConsole.error], oldest first. *)
Fixpoint error_lines (t : trace) : list string :=
  match t with
  | [] => []
  | ConsoleError line :: rest => line :: error_lines rest
  | _ :: rest => error_lines rest
  end.

(** The operations called on the generated client, oldest first. *)
Fixpoint operations_called (t : trace) : list Operation :=
  match t with
  | [] => []
  | Rpc req :: rest => operation req :: operations_called rest
  | _ :: rest => operations_called rest
  end.

(** A transport that answers every call with a null [data] and one error. *)
Definition failing_client : trace → Request → RpcResult :=
  fun _ _ => mkRpcResult VNull (VArr [VStr "boom"]).

(** A transport that answers every call with an empty object as [data] and
    no errors. *)
Definition quiet_client : trace → Request → RpcResult :=
  fun _ _ => mkRpcResult (VObj []) VUndefined.

(** A [JSON.parse] that accepts only the text [null]. *)
Definition parse_null_only (text : string) : outcome value :=
  if String.eqb text "null" then Returns VNull
  else Throws (SyntaxError "Unexpected token in JSON at position 0").

(** [JSON.stringify] of an error object without enumerable properties. *)
Definition stringify_empty (e : exn) : outcome string := Returns "{}".

(** A [fetch] that rejects with a value that refers to itself, and a
    [JSON.stringify] that cannot serialise that value. *)
Definition rejecting_with_cycle : trace → string → HttpOutcome :=
  fun _ _ => FetchRejects (OtherError "an object that is its own property").

Definition stringify_acyclic (e : exn) : outcome string :=
  match e with
  | OtherError _ => Throws (TypeError "Converting circular structure to JSON")
  | _ => Returns "{}"
  end.

(** An unreachable host: [fetch] rejects. *)
Definition unreachable_host : trace → string → HttpOutcome :=
  fun _ _ => FetchRejects (FetchError "getaddrinfo ENOTFOUND serve.onegraph.com").


(** [null] or [undefined]: what [?.] short-circuits on. *)
Definition nullish (v : value) : bool :=
  match v with
  | VUndefined | VNull => true
  | _ => false
  end.

(** The [first] variable [fetchCliSession] ends up sending for a given
    [desiredEventCount]. *)
Definition first_sent (desired : option number) : number :=
  match desired with
  | Some n => if falsy_number n then 1%float else n
  | None => 1%float
  end.

(** A transport whose session query answers with two queued events and no
    errors. *)
Definition two_events : list value :=
  [VObj [("id", VStr "event-1");
         ("__typename", VStr "OneGraphNetlifyCliSessionGenerateHandlerEvent")];
   VObj [("id", VStr "event-2");
         ("__typename", VStr "OneGraphNetlifyCliSessionPersistedLibraryUpdatedEvent")]].

Definition session_client : trace → Request → RpcResult :=
  fun _ _ =>
    mkRpcResult
      (VObj [("oneGraph",
              VObj [("netlifyCliSession",
                     VObj [("id", VStr "session");
                           ("events", VArr two_events)])])])
      VUndefined.

(** A transport whose schema query answers with the enabled services. *)
Definition schema_client : trace → Request → RpcResult :=
  fun _ _ =>
    mkRpcResult
      (VObj [("oneGraph",
              VObj [("app",
                     VObj [("graphQLSchema",
                            VObj [("id", VStr "schema-1");
                                  ("services", strings ["ONEGRAPH"; "GITHUB"])])])])])
      VUndefined.

(** A transport whose upsert answers with the app it made. *)
Definition upsert_client : trace → Request → RpcResult :=
  fun _ _ =>
    mkRpcResult
      (VObj [("oneGraph",
              VObj [("upsertAppForNetlifySite",
                     VObj [("app", VObj [("id", VStr "app-7")])])])])
      VUndefined.

(** A host that serves one fixed body. *)
Definition serving (body : string) : trace → string → HttpOutcome :=
  fun _ _ => Body body.

(** A [JSON.parse] that knows two bodies: the empty object and [null]. *)
Definition parse_known (text : string) : outcome value :=
  if String.eqb text "{}" then Returns (VObj [])
  else if String.eqb text "null" then Returns VNull
  else Throws (SyntaxError "Unexpected token in JSON at position 0").

(** * Properties of friendlyEventName *)

Module EventNameFacts.
Import ObjectGraph.

Section Facts.

Context {printer : NumberPrinter}.

Lemma strict_eq_true v s : strict_eq v s = true ↔ v = Str s.
Proof.
  destruct v; simpl; try (split; [discriminate | congruence]).
  rewrite String.eqb_eq. split; congruence.
Qed.

Lemma strict_eq_false v s : strict_eq v s = false ↔ v ≠ Str s.
Proof.
  rewrite <- strict_eq_true. destruct (strict_eq v s); split; congruence.
Qed.

(** Reading a string out of [event] means [event] is an object, so the
    destructuring at the head of the function succeeds. *)
Lemma destructure_of_read st event k s :
  read st event k = Str s →
  destructure st event =
    Returns (read st event "__typename", read st event "payload").
Proof. destruct event; simpl; congruence. Qed.

Lemma destructure_defined st event :
  event ≠ Undefined → event ≠ Null →
  destructure st event =
    Returns (read st event "__typename", read st event "payload").
Proof. destruct event; simpl; congruence. Qed.

(** One call on a wrapper is one call on its payload, one frame deeper. *)
Lemma friendlyEventName_wrapper_step st w fuel :
  read st w "__typename" = Str TestEvent →
  friendlyEventName (S fuel) st w =
    friendlyEventName fuel st (read st w "payload").
Proof.
  intros Hty. simpl.
  rewrite (destructure_of_read _ _ _ _ Hty), Hty. reflexivity.
Qed.

Lemma friendlyEventName_terminal st event fuel :
  event ≠ Undefined → event ≠ Null →
  read st event "__typename" ≠ Str TestEvent →
  friendlyEventName (S fuel) st event =
    Some (label_of st (read st event "__typename")).
Proof.
  intros Hu Hn Hty. simpl. rewrite destructure_defined by assumption.
  apply strict_eq_false in Hty. rewrite Hty. unfold label_of.
  repeat case_match; reflexivity.
Qed.

Lemma cyclic_never_completes fuel :
  friendlyEventName fuel cyclic_store (Ref 1%positive) = None.
Proof.
  induction fuel as [|fuel IH]; [reflexivity|].
  rewrite friendlyEventName_wrapper_step by reflexivity.
  exact IH.
Qed.

(** A wrapper without a payload: the recursive call destructures
    [undefined] and throws. *)
Lemma bare_wrapper_throws :
  ∃ msg, ∀ fuel,
    friendlyEventName (S (S fuel)) bare_wrapper_store (Ref 1%positive)
    = Some (Throws (TypeError msg)).
Proof. eexists. intros fuel. reflexivity. Qed.

(** The event whose [__typename] cannot be converted to a string: the
    template literal of the fallback label throws. *)
Lemma unprintable_kind_throws fuel :
  friendlyEventName (S fuel) unprintable_kind_store (Ref 1%positive)
  = Some (Throws (TypeError "Cannot convert object to primitive value")).
Proof. reflexivity. Qed.

(** C5, amended: the source has no depth cap and no cycle check.  On an
    event that is a chain of [n] test-event wrappers, for any [n], around
    an event that is neither [null] nor [undefined] nor itself a wrapper,
    [friendlyEventName] returns the label of that innermost event (the
    fixed label of its kind, or the fallback label around its
    [__typename] when that converts to a string), at every call depth
    above [n], that is, whenever the stack holds the [n + 1] nested
    calls. *)
Theorem friendlyEventName_returns_on_finite_chain st n event inner s :
  wraps st n event inner →
  inner ≠ Undefined → inner ≠ Null →
  read st inner "__typename" ≠ Str TestEvent →
  label_of st (read st inner "__typename") = Returns s →
  ∀ fuel, (n < fuel)%nat →
    friendlyEventName fuel st event = Some (Returns s).
Proof.
  intros Hw Hu Hn Hty Hlabel.
  induction Hw as [v | n w inner Hwty Hw IH]; intros fuel Hfuel.
  - destruct fuel as [|fuel]; [lia|].
    rewrite friendlyEventName_terminal by assumption. by rewrite Hlabel.
  - destruct fuel as [|fuel]; [lia|].
    rewrite friendlyEventName_wrapper_step by assumption.
    apply IH; [assumption.. | lia].
Qed.

(** C6: an event whose [__typename] is the test-event kind and whose
    payload is [e] is described exactly as [e] is: one call deeper, the
    call on the wrapper is the call on [e], so both complete with the
    same string (or the same thrown error), or neither completes. *)
Theorem friendlyEventName_wrapper_same_as_payload st w e :
  read st w "__typename" = Str TestEvent →
  read st w "payload" = e →
  (∀ fuel, friendlyEventName (S fuel) st w = friendlyEventName fuel st e)
  ∧ (∀ s, returns st w s ↔ returns st e s)
  ∧ (∀ o, completes st w o ↔ completes st e o).
Proof.
  intros Hty <-.
  assert (Hstep : ∀ fuel,
    friendlyEventName (S fuel) st w
    = friendlyEventName fuel st (read st w "payload"))
    by (intros; by apply friendlyEventName_wrapper_step).
  split; [exact Hstep|].
  assert (Hc : ∀ o, completes st w o ↔ completes st (read st w "payload") o).
  { intros o. split.
    - intros [[|fuel] H]; [discriminate|].
      exists fuel. by rewrite <- Hstep.
    - intros [fuel H]. exists (S fuel). by rewrite Hstep. }
  split; [|exact Hc].
  intros s. apply (Hc (Returns s)).
Qed.

(** C7, amended: on an event (any value but [null] and [undefined]) whose
    [__typename] is none of the three recognized kinds and converts to a
    string [text], [friendlyEventName] returns (it does not throw) the
    fallback label, which contains [text]; a [__typename] that is a
    string, such as [FooEvent], converts to itself. *)
Theorem friendlyEventName_unrecognized st event ty text fuel :
  event ≠ Undefined → event ≠ Null →
  read st event "__typename" = ty →
  ty ≠ Str TestEvent → ty ≠ Str GenerateHandlerEvent →
  ty ≠ Str PersistedLibraryUpdatedEvent →
  ToString st ty = Returns text →
  friendlyEventName (S fuel) st event
    = Some (Returns ("Unrecognized event (" +:+ text +:+ ")"))
  ∧ returns st event ("Unrecognized event (" +:+ text +:+ ")")
  ∧ (∃ before after,
       "Unrecognized event (" +:+ text +:+ ")" = before +:+ text +:+ after)
  ∧ (∀ s, ty = Str s → text = s).
Proof.
  intros Hu Hn <- Ht Hg Hp Htext.
  assert (Hrun : ∀ f, friendlyEventName (S f) st event
    = Some (Returns ("Unrecognized event (" +:+ text +:+ ")"))).
  { intros f. rewrite friendlyEventName_terminal by assumption.
    unfold label_of, unrecognized. apply strict_eq_false in Hg, Hp.
    by rewrite Hg, Hp, Htext. }
  split; [apply Hrun|]. split; [exists 1%nat; apply Hrun|].
  split; [exists "Unrecognized event (", ")"; reflexivity|].
  intros s Hs. rewrite Hs in Htext. simpl in Htext. congruence.
Qed.

End Facts.

(** C5, as stated, fails: on the event that is its own payload, no call
    depth is enough for [friendlyEventName] to return a string (or to
    complete at all), whatever the number printer. *)
Lemma friendlyEventName_cyclic_does_not_return :
  ¬ ∃ (printer : NumberPrinter) fuel s,
      friendlyEventName fuel cyclic_store (Ref 1%positive) = Some (Returns s).
Proof.
  intros (printer & fuel & s & H).
  rewrite cyclic_never_completes in H. discriminate.
Qed.

Lemma friendlyEventName_returns_on_finite_chain_witness :
  ∃ printer : NumberPrinter,
    ∀ fuel, (2 < fuel)%nat →
      friendlyEventName fuel (nested_store 2 "FooEvent") (Ref 3%positive)
      = Some (Returns "Unrecognized event (FooEvent)").
Proof.
  exists (fun _ => "").
  apply (friendlyEventName_returns_on_finite_chain
           (nested_store 2 "FooEvent") 2 (Ref 3%positive) (Ref 1%positive)).
  - apply wraps_step; [reflexivity|].
    apply wraps_step; [reflexivity|].
    apply wraps_here.
  - discriminate.
  - discriminate.
  - vm_compute. discriminate.
  - reflexivity.
Defined.

Lemma friendlyEventName_wrapper_same_as_payload_witness :
  ∃ printer : NumberPrinter,
    (∀ fuel,
       friendlyEventName (S fuel) (nested_store 1 "FooEvent") (Ref 2%positive)
       = friendlyEventName fuel (nested_store 1 "FooEvent") (Ref 1%positive))
    ∧ (∀ s, returns (nested_store 1 "FooEvent") (Ref 2%positive) s
            ↔ returns (nested_store 1 "FooEvent") (Ref 1%positive) s)
    ∧ (∀ o, completes (nested_store 1 "FooEvent") (Ref 2%positive) o
            ↔ completes (nested_store 1 "FooEvent") (Ref 1%positive) o).
Proof.
  exists (fun _ => "").
  apply (friendlyEventName_wrapper_same_as_payload
           (nested_store 1 "FooEvent") (Ref 2%positive) (Ref 1%positive));
    reflexivity.
Defined.

(** C7, as stated, fails: the event [{ __typename: { toString: null } }]
    has a [__typename] that is none of the recognized kinds, and on it
    [friendlyEventName] throws a [TypeError] at every call depth instead of
    returning a label, whatever the number printer. *)
Lemma friendlyEventName_unprintable_kind_throws :
  read unprintable_kind_store (Ref 1%positive) "__typename" = Ref 2%positive
  ∧ read unprintable_kind_store (Ref 2%positive) "toString" = Null
  ∧ ¬ ∃ (printer : NumberPrinter) fuel s,
        friendlyEventName fuel unprintable_kind_store (Ref 1%positive)
        = Some (Returns s).
Proof.
  split; [reflexivity|]. split; [reflexivity|].
  intros (printer & [|fuel] & s & H); [discriminate|].
  rewrite unprintable_kind_throws in H. discriminate.
Qed.

Lemma friendlyEventName_unrecognized_witness :
  ∃ printer : NumberPrinter,
    friendlyEventName 1 (nested_store 0 "FooEvent") (Ref 1%positive)
      = Some (Returns "Unrecognized event (FooEvent)")
    ∧ returns (nested_store 0 "FooEvent") (Ref 1%positive)
        "Unrecognized event (FooEvent)"
    ∧ (∃ before after,
         "Unrecognized event (FooEvent)" = before +:+ "FooEvent" +:+ after)
    ∧ (∀ s, Str "FooEvent" = Str s → "FooEvent" = s).
Proof.
  exists (fun _ => "").
  apply (friendlyEventName_unrecognized
           (nested_store 0 "FooEvent") (Ref 1%positive) (Str "FooEvent")
           "FooEvent" 0);
    [discriminate | discriminate | reflexivity | discriminate .. | reflexivity].
Defined.

End EventNameFacts.

(** * Properties of the RPC wrappers *)

(** Two numbers that differ under [==] are different numbers. *)
Lemma number_neq (m n : number) : PrimFloat.eqb m n ≠ PrimFloat.eqb m m → m ≠ n.
Proof. intros Hne ->. by apply Hne. Qed.

Lemma one_is_not_1000 : 1%float ≠ 1000%float.
Proof. apply number_neq. vm_compute. discriminate. Qed.

Section ClientFacts.

Variable GeneratedClient : trace → Request → RpcResult.

(** Unfolds the monad and the collaborator call down to the pair of
    outcome and trace. *)
Ltac run :=
  unfold mbind, M_bind, bind, mret, M_ret, ret, lift, call,
    internalConsole.error, internalConsole.log, emit; simpl.

(** The object [fetchCliSession] returns always has its two properties. *)
Lemma fetchCliSession_shape options t :
  ∃ session req,
    fetchCliSession GeneratedClient options t
    = (Returns (VObj [("session", session);
                      ("errors", errors (GeneratedClient t req))]),
       t ++ [Rpc req])
    ∧ operation req = fetchCLISessionQuery
    ∧ truthy session = true.
Proof.
  unfold fetchCliSession. run. eexists _, _.
  split; [reflexivity|]. split; [reflexivity|].
  unfold or_else at 1. by case_match.
Qed.

(** C2 (the code at the inputs of the claim): with [desiredEventCount]
    omitted, or equal to 0, the [first] variable that [fetchCliSession]
    sends is 1, not 1000: the fallback [|| 1] comes first and leaves the
    later [|| 1000] without effect. *)
Theorem fetchCliSession_default_first_is_1 appId authToken sessionId t :
  let sent first :=
    t ++ [Rpc (mkRequest fetchCLISessionQuery
                 [("nfToken", VStr authToken);
                  ("sessionId", VStr sessionId);
                  ("first", first)]
                 (Some [("siteId", VStr appId)]))] in
  snd (fetchCliSession GeneratedClient
         (mkCliSessionOptions appId authToken sessionId None) t)
    = sent (VNum 1%float)
  ∧ snd (fetchCliSession GeneratedClient
           (mkCliSessionOptions appId authToken sessionId (Some 0%float)) t)
    = sent (VNum 1%float)
  ∧ sent (VNum 1%float) ≠ sent (VNum 1000%float).
Proof.
  simpl. split; [reflexivity|]. split; [reflexivity|].
  intros H. apply app_inv_head in H.
  assert (1%float = 1000%float) by congruence.
  by apply one_is_not_1000.
Qed.

(** C3: when the envelope of the session query carries an errors array
    (empty or not), [fetchCliSessionEvents] returns normally, the object
    it returns carries that array as its [errors], and that object has no
    [events] property: reading it gives [undefined]. *)
Theorem fetchCliSessionEvents_on_errors appId authToken sessionId t es :
  let req :=
    mkRequest fetchCLISessionQuery
      [("nfToken", VStr authToken); ("sessionId", VStr sessionId);
       ("first", VNum 1000%float)]
      (Some [("siteId", VStr appId)]) in
  errors (GeneratedClient t req) = VArr es →
  ∃ result,
    fetchCliSessionEvents GeneratedClient appId authToken sessionId t
      = (Returns result, t ++ [Rpc req])
    ∧ get result "errors" = Returns (VArr es)
    ∧ get result "events" = Returns VUndefined.
Proof.
  intros req Herr. unfold fetchCliSessionEvents, fetchCliSession. run.
  change (VNum 1000%float ||| VNum 1%float ||| VNum 1000%float) with (VNum 1000%float).
  fold req. rewrite Herr. simpl.
  eexists. split; [reflexivity|]. split; reflexivity.
Qed.

(** C8: with no event ids, [ackCLISessionEvents] still calls the
    acknowledgment mutation, with [eventIds] the empty array, and returns
    (it does not throw) what the envelope's data holds. *)
Theorem ackCLISessionEvents_empty_round_trip appId authToken sessionId t :
  let req :=
    mkRequest executeAckCLISessionEventMutation
      [("nfToken", VStr authToken); ("sessionId", VStr sessionId);
       ("eventIds", VArr [])]
      (Some [("siteId", VStr appId)]) in
  ackCLISessionEvents GeneratedClient
    (mkAckInput appId authToken sessionId []) t
  = (Returns (data (GeneratedClient t req))?."oneGraph"?."ackNetlifyCliEvents",
     t ++ [Rpc req]).
Proof. reflexivity. Qed.

(** C10: whatever the generated client answers, [ensureAppForSite] makes
    exactly two calls, the upsert and the schema query, then returns; the
    guard [!schema] reads the envelope, an object, so the branch that logs
    and calls [executeCreateNewSchemaMutation] is never taken. *)
Theorem ensureAppForSite_never_creates_schema authToken siteId t :
  ∃ upsert query,
    ensureAppForSite GeneratedClient authToken siteId t
      = (Returns VUndefined, t ++ [Rpc upsert; Rpc query])
    ∧ operation upsert = executeUpsertAppForSiteMutation
    ∧ operation query = fetchAppSchemaQuery
    ∧ operations_called [Rpc upsert; Rpc query]
        = [executeUpsertAppForSiteMutation; fetchAppSchemaQuery]
    ∧ executeCreateNewSchemaMutation ∉ operations_called [Rpc upsert; Rpc query].
Proof.
  unfold ensureAppForSite. run. eexists _, _.
  split; [by rewrite <- app_assoc|].
  split; [reflexivity|]. split; [reflexivity|]. split; [reflexivity|].
  simpl. rewrite !elem_of_cons, elem_of_nil. intros [|[|[]]]; discriminate.
Qed.

(** C1, amended: the errors of the envelope reach the caller, unmodified,
    through four operations only: [fetchCliSession],
    [fetchCliSessionEvents] (when the errors are truthy, as every array
    is), [executeMarkCliSessionActiveHeartbeat] and
    [executeMarkCliSessionInactive] return them as the [errors] property of
    their result.  The other wrappers return the payload unwrapped from
    [data] alone: replacing the errors of every envelope by any value [e]
    does not change what they return. *)
Theorem errors_surfaced_only_by_envelope_operations t e :
  (∀ options, ∃ req session,
     fetchCliSession GeneratedClient options t
     = (Returns (VObj [("session", session);
                       ("errors", errors (GeneratedClient t req))]),
        t ++ [Rpc req]))
  ∧ (∀ appId authToken sessionId, ∃ req session,
       fetchCliSessionEvents GeneratedClient appId authToken sessionId t
       = (Returns
            (if truthy (errors (GeneratedClient t req)) then
               VObj [("session", session);
                     ("errors", errors (GeneratedClient t req))]
             else VObj [("events", session?."events" ||| VArr [])]),
          t ++ [Rpc req]))
  ∧ (∀ authToken appId sessionId, ∃ req session,
       executeMarkCliSessionActiveHeartbeat GeneratedClient
         authToken appId sessionId t
       = (Returns (VObj [("errors", errors (GeneratedClient t req));
                         ("data", session)]),
          t ++ [Rpc req]))
  ∧ (∀ authToken appId sessionId, ∃ req session,
       executeMarkCliSessionInactive GeneratedClient
         authToken appId sessionId t
       = (Returns (VObj [("errors", errors (GeneratedClient t req));
                         ("data", session)]),
          t ++ [Rpc req]))
  ∧ (∀ authToken appId docId,
       fetchPersistedQuery (with_errors GeneratedClient e) authToken appId docId t
       = fetchPersistedQuery GeneratedClient authToken appId docId t)
  ∧ (∀ netlifyToken appId name metadata,
       createCLISession (with_errors GeneratedClient e)
         netlifyToken appId name metadata t
       = createCLISession GeneratedClient netlifyToken appId name metadata t)
  ∧ (∀ netlifyToken appId sessionId metadata,
       updateCLISessionMetadata (with_errors GeneratedClient e)
         netlifyToken appId sessionId metadata t
       = updateCLISessionMetadata GeneratedClient
           netlifyToken appId sessionId metadata t)
  ∧ (∀ input,
       ackCLISessionEvents (with_errors GeneratedClient e) input t
       = ackCLISessionEvents GeneratedClient input t)
  ∧ (∀ netlifyToken input,
       createPersistedQuery (with_errors GeneratedClient e) netlifyToken input t
       = createPersistedQuery GeneratedClient netlifyToken input t)
  ∧ (∀ authToken siteId,
       fetchAppSchema (with_errors GeneratedClient e) authToken siteId t
       = fetchAppSchema GeneratedClient authToken siteId t)
  ∧ (∀ authToken siteId,
       upsertAppForSite (with_errors GeneratedClient e) authToken siteId t
       = upsertAppForSite GeneratedClient authToken siteId t)
  ∧ (∀ nfToken input,
       createNewAppSchema (with_errors GeneratedClient e) nfToken input t
       = createNewAppSchema GeneratedClient nfToken input t)
  ∧ (∀ authToken appId,
       fetchEnabledServices (with_errors GeneratedClient e) authToken appId t
       = fetchEnabledServices GeneratedClient authToken appId t).
Proof.
  repeat split; intros; try reflexivity.
  - eexists _, _. reflexivity.
  - unfold fetchCliSessionEvents, fetchCliSession. run.
    destruct (truthy (errors (GeneratedClient t _))) eqn:Herr; simpl;
      eexists _, _; (apply pair_equal_spec; split; [|reflexivity]);
      rewrite Herr; reflexivity.
  - eexists _, _. reflexivity.
  - eexists _, _. reflexivity.
Qed.

End ClientFacts.

(** C1, as stated, fails.  The transport answers the acknowledgment with a
    null [data] and the errors array [["boom"]]; [ackCLISessionEvents]
    returns [undefined], in which that array occurs nowhere; so do
    [fetchPersistedQuery] and [createCLISession]. *)
Lemma errors_dropped_by_payload_operations :
  let errs := VArr [VStr "boom"] in
  (∀ t req, errors (failing_client t req) = errs)
  ∧ fst (ackCLISessionEvents failing_client
           (mkAckInput "site" "token" "session" ["event-1"]) [])
    = Returns VUndefined
  ∧ fst (fetchPersistedQuery failing_client "token" "site" "doc" [])
    = Returns VUndefined
  ∧ fst (createCLISession failing_client "token" "site" "cli" (VObj []) [])
    = Returns VUndefined
  ∧ ¬ occurs_in errs VUndefined.
Proof.
  simpl. repeat split. intros H. inversion H.
Qed.

Lemma fetchCliSessionEvents_on_errors_witness :
  ∃ result,
    fetchCliSessionEvents failing_client "site" "token" "session" []
      = (Returns result,
         [] ++ [Rpc (mkRequest fetchCLISessionQuery
                       [("nfToken", VStr "token");
                        ("sessionId", VStr "session");
                        ("first", VNum 1000%float)]
                       (Some [("siteId", VStr "site")]))])
    ∧ get result "errors" = Returns (VArr [VStr "boom"])
    ∧ get result "events" = Returns VUndefined.
Proof.
  apply (fetchCliSessionEvents_on_errors failing_client
           "site" "token" "session" [] [VStr "boom"]).
  reflexivity.
Defined.

(** * Properties of the schema fetch *)

Lemma error_lines_app t1 t2 :
  error_lines (t1 ++ t2) = error_lines t1 ++ error_lines t2.
Proof.
  induction t1 as [|[req|url|line|line] t1 IH]; simpl; congruence.
Qed.

Section SchemaFacts.

Variable fetch : trace → string → HttpOutcome.
Variable JSON_parse : string → outcome value.
Variable JSON_stringify : exn → outcome string.
Variable GraphQLSchema : Type.
Variable buildClientSchema : value → outcome GraphQLSchema.

(** C4, amended: when [fetch] rejects, [response.text()] rejects or
    [JSON.parse] throws, with an [error] that [JSON.stringify] turns into a
    [text], [fetchOneGraphSchemaJson] returns [undefined] (it does not
    throw) and writes exactly one entry to [internalConsole.error]: the
    text [Error fetching schema: ] followed by [text]. *)
Theorem fetchOneGraphSchemaJson_swallows_failure
    appId enabledServices t error text :
  let url := schema_url appId enabledServices in
  let line := "Error fetching schema: " +:+ text in
  (fetch t url = FetchRejects error
   ∨ fetch t url = TextRejects error
   ∨ ∃ body, fetch t url = Body body ∧ JSON_parse body = Throws error) →
  JSON_stringify error = Returns text →
  fetchOneGraphSchemaJson fetch JSON_parse JSON_stringify appId enabledServices t
    = (Returns VUndefined, t ++ [HttpGet url; ConsoleError line])
  ∧ error_lines
      (snd (fetchOneGraphSchemaJson fetch JSON_parse JSON_stringify
              appId enabledServices t))
    = error_lines t ++ [line].
Proof.
  intros url line Hfail Htext.
  assert (Hrun :
    fetchOneGraphSchemaJson fetch JSON_parse JSON_stringify appId enabledServices t
    = (Returns VUndefined, t ++ [HttpGet url; ConsoleError line])).
  { unfold fetchOneGraphSchemaJson, try_catch, fetch_text, mbind, M_bind,
      bind, mret, M_ret, ret, lift, internalConsole.error, emit.
    fold url.
    destruct Hfail as [H | [H | (body & H & Hparse)]]; rewrite H;
      try rewrite Hparse; rewrite Htext; simpl; by rewrite <- app_assoc. }
  split; [exact Hrun|].
  rewrite Hrun. simpl. rewrite error_lines_app. reflexivity.
Qed.

(** C9: when [fetchOneGraphSchemaJson] resolves to [undefined],
    [fetchOneGraphSchema] throws a [TypeError], raised by reading [.data]
    of [undefined], and [buildClientSchema] is not reached. *)
Theorem fetchOneGraphSchema_throws_on_undefined appId enabledServices t :
  fst (fetchOneGraphSchemaJson fetch JSON_parse JSON_stringify
         appId enabledServices t)
    = Returns VUndefined →
  fst (fetchOneGraphSchema fetch JSON_parse JSON_stringify GraphQLSchema
         buildClientSchema appId enabledServices t)
    = Throws (TypeError "Cannot read properties of undefined (reading 'data')").
Proof.
  intros Hjson. unfold fetchOneGraphSchema, mbind, M_bind, bind, lift.
  destruct (fetchOneGraphSchemaJson _ _ _ _ _ t) as [o t'].
  simpl in Hjson. subst o. reflexivity.
Qed.

End SchemaFacts.

(** C4, as stated, fails: [fetch] rejects with a value that refers to
    itself, [JSON.stringify] throws on it inside the [catch] block, and
    [fetchOneGraphSchemaJson] throws that [TypeError] having written no
    console line. *)
Lemma fetchOneGraphSchemaJson_rethrows_unprintable_error :
  fetchOneGraphSchemaJson rejecting_with_cycle parse_null_only stringify_acyclic
    "site" ["ONEGRAPH"] []
  = (Throws (TypeError "Converting circular structure to JSON"),
     [HttpGet (schema_url "site" ["ONEGRAPH"])])
  ∧ error_lines
      (snd (fetchOneGraphSchemaJson rejecting_with_cycle parse_null_only
              stringify_acyclic "site" ["ONEGRAPH"] []))
    = [].
Proof. split; reflexivity. Qed.

Lemma fetchOneGraphSchemaJson_swallows_failure_witness :
  let url := schema_url "site" ["ONEGRAPH"; "GITHUB"] in
  let line := "Error fetching schema: {}" in
  fetchOneGraphSchemaJson unreachable_host parse_null_only stringify_empty
    "site" ["ONEGRAPH"; "GITHUB"] []
    = (Returns VUndefined, [] ++ [HttpGet url; ConsoleError line])
  ∧ error_lines
      (snd (fetchOneGraphSchemaJson unreachable_host parse_null_only
              stringify_empty "site" ["ONEGRAPH"; "GITHUB"] []))
    = error_lines [] ++ [line].
Proof.
  apply (fetchOneGraphSchemaJson_swallows_failure
           unreachable_host parse_null_only stringify_empty
           "site" ["ONEGRAPH"; "GITHUB"] []
           (FetchError "getaddrinfo ENOTFOUND serve.onegraph.com") "{}").
  - left. reflexivity.
  - reflexivity.
Defined.

Lemma fetchOneGraphSchema_throws_on_undefined_witness :
  fst (fetchOneGraphSchema unreachable_host parse_null_only stringify_empty
         unit (fun _ => Returns tt) "site" ["ONEGRAPH"] [])
    = Throws (TypeError "Cannot read properties of undefined (reading 'data')").
Proof.
  apply (fetchOneGraphSchema_throws_on_undefined
           unreachable_host parse_null_only stringify_empty
           unit (fun _ => Returns tt) "site" ["ONEGRAPH"] []).
  reflexivity.
Defined.

(** * Further properties of friendlyEventName *)

Module EventNameExtras.
Import ObjectGraph EventNameFacts.

Section Extras.

Context {printer : NumberPrinter}.

(** Following [n] wrappers costs exactly [n] frames. *)
Lemma friendlyEventName_through_wrappers st n event inner fuel :
  wraps st n event inner →
  friendlyEventName (n + fuel) st event = friendlyEventName fuel st inner.
Proof.
  induction 1 as [v | n w inner Hty Hw IH]; [reflexivity|].
  change (S n + fuel)%nat with (S (n + fuel)).
  rewrite friendlyEventName_wrapper_step by assumption. exact IH.
Qed.

(** With no more frames than wrappers the call cannot have returned. *)
Lemma friendlyEventName_too_shallow st n event inner fuel :
  wraps st n event inner → (fuel ≤ n)%nat →
  friendlyEventName fuel st event = None.
Proof.
  intros Hw. revert fuel.
  induction Hw as [v | n w inner Hty Hw IH]; intros fuel Hle.
  - by replace fuel with 0%nat by lia.
  - destruct fuel as [|fuel]; [reflexivity|].
    rewrite friendlyEventName_wrapper_step by assumption.
    apply IH. lia.
Qed.

(** One call on an event that is not a wrapper completes at once. *)
Lemma friendlyEventName_not_wrapper st event fuel :
  read st event "__typename" ≠ Str TestEvent →
  friendlyEventName (S fuel) st event = friendlyEventName 1 st event
  ∧ ∃ o, friendlyEventName 1 st event = Some o.
Proof.
  intros Hty. apply strict_eq_false in Hty. simpl.
  destruct (destructure st event) as [[ty payload]|e] eqn:Hd.
  - assert (ty = read st event "__typename") as ->
      by (destruct event; simpl in Hd; inversion Hd; reflexivity).
    rewrite Hty. split; [reflexivity|].
    repeat case_match; eauto.
  - eauto.
Qed.

(** The function throws nothing but [TypeError]s of its own: from the
    destructuring, or from the conversion in the template literal. *)
Lemma friendlyEventName_throws_TypeError fuel st event e :
  friendlyEventName fuel st event = Some (Throws e) → ∃ msg, e = TypeError msg.
Proof.
  revert event. induction fuel as [|fuel IH]; intros event Hrun;
    [discriminate|].
  simpl in Hrun.
  destruct (destructure st event) as [[ty payload]|e'] eqn:Hd.
  - destruct (strict_eq ty TestEvent); [exact (IH payload Hrun)|].
    destruct (strict_eq ty GenerateHandlerEvent); [discriminate|].
    destruct (strict_eq ty PersistedLibraryUpdatedEvent); [discriminate|].
    unfold unrecognized in Hrun.
    destruct ty as [| |[|]|n|s|l]; simpl in Hrun; try discriminate.
    destruct (has_own st l "toString"); inversion Hrun; eauto.
  - inversion Hrun; subst e'.
    destruct event; simpl in Hd; inversion Hd; eauto.
Qed.

(** X1: the exact call depth.  On [n] wrappers around an event that is not
    a wrapper, [friendlyEventName] needs [n + 1] frames: with fewer it has
    not returned, with more it answers what one call on the innermost event
    answers. *)
Theorem friendlyEventName_exact_depth st n event inner fuel :
  wraps st n event inner →
  read st inner "__typename" ≠ Str TestEvent →
  friendlyEventName fuel st event
  = if decide (fuel ≤ n)%nat then None else friendlyEventName 1 st inner.
Proof.
  intros Hw Hty. case_decide as Hle.
  - by eapply friendlyEventName_too_shallow.
  - replace fuel with (n + S (fuel - n - 1))%nat by lia.
    rewrite (friendlyEventName_through_wrappers _ _ _ _ _ Hw).
    by apply friendlyEventName_not_wrapper.
Qed.

(** X2: stack overflow or not.  There is a stack depth at which
    [friendlyEventName] ends otherwise than by the runtime's [RangeError]
    (it returns a label or throws a [TypeError]) exactly when the payload
    chain of the event leaves the wrappers after finitely many steps. *)
Theorem friendlyEventName_overflows_unless_finite_chain st event :
  (∃ depth, ∀ msg,
     friendlyEventName_on_stack depth st event ≠ Throws (RangeError msg))
  ↔ ∃ n inner, wraps st n event inner
               ∧ read st inner "__typename" ≠ Str TestEvent.
Proof.
  unfold friendlyEventName_on_stack. split.
  - intros (fuel & Hrun).
    destruct (friendlyEventName fuel st event) as [o|] eqn:Ho;
      [clear Hrun | by destruct (Hrun "Maximum call stack size exceeded")].
    revert event Ho.
    induction fuel as [|fuel IH]; intros event Hrun; [discriminate|].
    destruct (strict_eq (read st event "__typename") TestEvent) eqn:Hty;
      [apply strict_eq_true in Hty | apply strict_eq_false in Hty].
    + rewrite friendlyEventName_wrapper_step in Hrun by assumption.
      destruct (IH _ Hrun) as (n & inner & Hw & Hin).
      exists (S n), inner. split; [|assumption].
      by apply wraps_step.
    + exists 0%nat, event. split; [apply wraps_here | assumption].
  - intros (n & inner & Hw & Hty).
    destruct (friendlyEventName_not_wrapper st inner 0 Hty) as [_ [o Ho]].
    exists (n + 1)%nat. intros msg.
    rewrite (friendlyEventName_through_wrappers _ _ _ _ _ Hw), Ho.
    destruct o as [s|e]; [discriminate|].
    destruct (friendlyEventName_throws_TypeError _ _ _ _ Ho) as [m ->].
    discriminate.
Qed.

(** X3: a cycle of wrappers of any length: when the payload chain of
    [event] comes back to [event] after [n ≥ 1] wrappers,
    [friendlyEventName] completes at no call depth. *)
Theorem friendlyEventName_diverges_on_cycle st n event :
  wraps st n event event → (0 < n)%nat →
  ∀ fuel, friendlyEventName fuel st event = None.
Proof.
  intros Hw Hn fuel.
  induction (lt_wf fuel) as [fuel _ IH].
  destruct (decide (fuel ≤ n)%nat) as [Hle|Hgt].
  - by eapply friendlyEventName_too_shallow.
  - replace fuel with (n + (fuel - n))%nat by lia.
    rewrite (friendlyEventName_through_wrappers _ _ _ _ _ Hw).
    apply IH. lia.
Qed.

(** X4: wrappers around nothing.  When the payload chain ends, after [n]
    wrappers, in [undefined] (a wrapper sent without payload) or in [null],
    [friendlyEventName] throws a [TypeError] from the destructuring in the
    innermost call; it returns no label. *)
Theorem friendlyEventName_throws_on_missing_payload st n event inner :
  wraps st n event inner →
  inner = Undefined ∨ inner = Null →
  ∃ msg, ∀ fuel, (n < fuel)%nat →
    friendlyEventName fuel st event = Some (Throws (TypeError msg)).
Proof.
  intros Hw Hin.
  assert (∃ msg, ∀ f, friendlyEventName (S f) st inner
                      = Some (Throws (TypeError msg))) as [msg Hmsg]
    by (destruct Hin as [-> | ->]; eexists; intros f; reflexivity).
  exists msg. intros fuel Hfuel.
  replace fuel with (n + S (fuel - n - 1))%nat by lia.
  rewrite (friendlyEventName_through_wrappers _ _ _ _ _ Hw).
  apply Hmsg.
Qed.

(** X5: what can come out, at any stack depth.  A string that
    [friendlyEventName] returns is the label of the event in which the
    payload chain ends: one of the two fixed labels when that event's
    [__typename] is the kind in question, else the fallback label around
    that [__typename] converted to a string.  An error it ends with is a
    [TypeError], or the [RangeError] of the exhausted stack. *)
Theorem friendlyEventName_range depth st event :
  match friendlyEventName_on_stack depth st event with
  | Returns s =>
      ∃ n inner,
        wraps st n event inner
        ∧ ((read st inner "__typename" = Str GenerateHandlerEvent
            ∧ s = "Generate handler as Netlify function ")
           ∨ (read st inner "__typename" = Str PersistedLibraryUpdatedEvent
              ∧ s = "Sync Netlify Graph operations library")
           ∨ (∃ text,
                read st inner "__typename" ≠ Str TestEvent
                ∧ read st inner "__typename" ≠ Str GenerateHandlerEvent
                ∧ read st inner "__typename" ≠ Str PersistedLibraryUpdatedEvent
                ∧ ToString st (read st inner "__typename") = Returns text
                ∧ s = "Unrecognized event (" +:+ text +:+ ")"))
  | Throws e => ∃ msg, e = TypeError msg ∨ e = RangeError msg
  end.
Proof.
  unfold friendlyEventName_on_stack.
  destruct (friendlyEventName depth st event) as [[s|e]|] eqn:Hrun.
  - revert event Hrun.
    induction depth as [|fuel IH]; intros event Hrun; [discriminate|].
    destruct (strict_eq (read st event "__typename") TestEvent) eqn:Hty.
    + apply strict_eq_true in Hty.
      rewrite friendlyEventName_wrapper_step in Hrun by assumption.
      destruct (IH _ Hrun) as (n & inner & Hw & Hcases).
      exists (S n), inner. split; [by apply wraps_step | exact Hcases].
    + exists 0%nat, event. split; [apply wraps_here|].
      simpl in Hrun.
      destruct (destructure st event) as [[ty payload]|e] eqn:Hd;
        [|discriminate].
      assert (ty = read st event "__typename") as ->
        by (destruct event; simpl in Hd; inversion Hd; reflexivity).
      rewrite Hty in Hrun.
      destruct (strict_eq (read st event "__typename") GenerateHandlerEvent)
        eqn:Hg.
      { apply strict_eq_true in Hg. left. split; congruence. }
      destruct (strict_eq (read st event "__typename")
                  PersistedLibraryUpdatedEvent) eqn:Hp.
      { apply strict_eq_true in Hp. right. left. split; congruence. }
      apply strict_eq_false in Hty, Hg, Hp.
      right. right. unfold unrecognized in Hrun.
      destruct (ToString st (read st event "__typename")) as [text|e];
        [|discriminate].
      exists text. repeat split; try assumption. congruence.
  - destruct (friendlyEventName_throws_TypeError _ _ _ _ Hrun) as [msg ->].
    eauto.
  - eauto.
Qed.

End Extras.

Lemma friendlyEventName_exact_depth_witness :
  ∃ printer : NumberPrinter,
    friendlyEventName 3 (nested_store 2 "FooEvent") (Ref 3%positive)
    = if decide (3 ≤ 2)%nat then None
      else friendlyEventName 1 (nested_store 2 "FooEvent") (Ref 1%positive).
Proof.
  exists (fun _ => "").
  apply (friendlyEventName_exact_depth
           (nested_store 2 "FooEvent") 2 (Ref 3%positive) (Ref 1%positive) 3).
  - apply wraps_step; [reflexivity|].
    apply wraps_step; [reflexivity|].
    apply wraps_here.
  - vm_compute. discriminate.
Defined.

Lemma friendlyEventName_diverges_on_cycle_witness :
  ∃ printer : NumberPrinter,
    friendlyEventName 1000 cyclic_store (Ref 1%positive) = None.
Proof.
  exists (fun _ => "").
  apply (friendlyEventName_diverges_on_cycle cyclic_store 1 (Ref 1%positive)).
  - apply wraps_step; [reflexivity|]. apply wraps_here.
  - lia.
Defined.

Lemma friendlyEventName_throws_on_missing_payload_witness :
  ∃ (printer : NumberPrinter) msg, ∀ fuel, (1 < fuel)%nat →
    friendlyEventName fuel bare_wrapper_store (Ref 1%positive)
    = Some (Throws (TypeError msg)).
Proof.
  exists (fun _ => "").
  apply (friendlyEventName_throws_on_missing_payload
           bare_wrapper_store 1 (Ref 1%positive) Undefined).
  - apply wraps_step; [reflexivity|]. apply wraps_here.
  - left. reflexivity.
Defined.

End EventNameExtras.

(** * Further properties of the RPC wrappers *)

Lemma optget_nullish v k : nullish v = true → v?.k = VUndefined.
Proof. by destruct v. Qed.

(** The [|| []] put on [session] cannot be seen through [?.events]: a falsy
    session and the empty array both have no [events]. *)
Lemma or_else_empty_array_optget p k : (p ||| VArr [])?.k = p?.k.
Proof.
  unfold or_else. destruct (truthy p) eqn:Hp; [reflexivity|].
  destruct p; try discriminate; reflexivity.
Qed.

Section ClientExtras.

Variable GeneratedClient : trace → Request → RpcResult.

Ltac run :=
  unfold mbind, M_bind, bind, mret, M_ret, ret, lift, call,
    internalConsole.error, internalConsole.log, emit; simpl.

(** The query [fetchCliSessionEvents] sends. *)
Let events_request (appId authToken sessionId : string) : Request :=
  mkRequest fetchCLISessionQuery
    [("nfToken", VStr authToken); ("sessionId", VStr sessionId);
     ("first", VNum 1000%float)]
    (Some [("siteId", VStr appId)]).

(** How [fetchCliSessionEvents] runs, for every answer of the transport. *)
Lemma fetchCliSessionEvents_run appId authToken sessionId t :
  let r := GeneratedClient t (events_request appId authToken sessionId) in
  fetchCliSessionEvents GeneratedClient appId authToken sessionId t
  = (Returns
       (if truthy (errors r) then
          VObj [("session", (data r)?."oneGraph"?."netlifyCliSession" ||| VArr []);
                ("errors", errors r)]
        else
          VObj [("events",
                 (data r)?."oneGraph"?."netlifyCliSession"?."events" ||| VArr [])]),
     t ++ [Rpc (events_request appId authToken sessionId)]).
Proof.
  intros r. unfold fetchCliSessionEvents, fetchCliSession. run.
  change (VNum 1000%float ||| VNum 1%float ||| VNum 1000%float) with (VNum 1000%float).
  fold (events_request appId authToken sessionId). fold r.
  destruct (truthy (errors r)); simpl; [reflexivity|].
  by rewrite or_else_empty_array_optget.
Qed.

(** X6: the [first] variable of [fetchCliSession].  A [desiredEventCount]
    that is neither zero (of either sign) nor NaN is sent as it is, negative
    and fractional ones included; an omitted, zero or NaN one is sent as 1.
    So what is sent is never zero or NaN, and it is 1000 only when the
    caller asks for 1000. *)
Theorem fetchCliSession_first_variable appId authToken sessionId desired t :
  snd (fetchCliSession GeneratedClient
         (mkCliSessionOptions appId authToken sessionId desired) t)
  = t ++ [Rpc (mkRequest fetchCLISessionQuery
                 [("nfToken", VStr authToken);
                  ("sessionId", VStr sessionId);
                  ("first", VNum (first_sent desired))]
                 (Some [("siteId", VStr appId)]))]
  ∧ falsy_number (first_sent desired) = false
  ∧ (first_sent desired = 1000%float ↔ desired = Some 1000%float).
Proof.
  unfold fetchCliSession. run.
  assert (Hfirst : of_optional_number desired ||| VNum 1%float ||| VNum 1000%float
                   = VNum (first_sent desired)).
  { destruct desired as [n|]; [|reflexivity].
    unfold first_sent, or_else. simpl.
    destruct (falsy_number n) eqn:Hn; simpl; [reflexivity|]. by rewrite Hn. }
  rewrite Hfirst. split; [reflexivity|].
  unfold first_sent. destruct desired as [n|].
  - destruct (falsy_number n) eqn:Hn.
    + split; [reflexivity|]. split.
      * intros H. by destruct (one_is_not_1000 H).
      * intros [= ->]. discriminate Hn.
    + split; [assumption|].
      split; [intros ->; reflexivity | intros H; by injection H].
  - split; [reflexivity|]. split.
    + intros H. by destruct (one_is_not_1000 H).
    + discriminate.
Qed.

(** X7: the [session] that [fetchCliSession] returns can always be read
    from: whatever the envelope holds (null data, a missing session), it is
    never [null] or [undefined], and reading a property of it does not
    throw. *)
Theorem fetchCliSession_session_readable options t :
  ∃ session errs,
    fst (fetchCliSession GeneratedClient options t)
    = Returns (VObj [("session", session); ("errors", errs)])
    ∧ nullish session = false
    ∧ (∀ k, get session k = Returns (prop session k)).
Proof.
  unfold fetchCliSession. run. eexists _, _. split; [reflexivity|].
  match goal with |- context [?p ||| VArr []] => set (payload := p) end.
  assert (Hs : nullish (payload ||| VArr []) = false)
    by (unfold or_else; destruct (truthy payload) eqn:Hp;
        [by destruct payload | reflexivity]).
  split; [exact Hs|].
  intros k. by destruct (payload ||| VArr []).
Qed.

(** X8: [fetchCliSessionEvents] never throws and makes exactly one call, the
    session query with [first] 1000.  What it returns has one of two shapes:
    with truthy errors, the errors and no [events]; otherwise no [errors]
    and an [events] that is truthy, so never [undefined] or [null]. *)
Theorem fetchCliSessionEvents_total appId authToken sessionId t :
  let r := GeneratedClient t (events_request appId authToken sessionId) in
  ∃ result,
    fetchCliSessionEvents GeneratedClient appId authToken sessionId t
    = (Returns result, t ++ [Rpc (events_request appId authToken sessionId)])
    ∧ ((truthy (errors r) = true
        ∧ prop result "errors" = errors r
        ∧ prop result "events" = VUndefined)
       ∨ (truthy (errors r) = false
          ∧ prop result "errors" = VUndefined
          ∧ truthy (prop result "events") = true)).
Proof.
  intros r. rewrite fetchCliSessionEvents_run. fold r.
  eexists. split; [reflexivity|].
  destruct (truthy (errors r)) eqn:Herr; [left | right]; simpl.
  - done.
  - repeat split. unfold or_else. by case_match.
Qed.

(** X9: the happy path.  When the envelope has no (truthy) errors and its
    session holds an [events] array, [fetchCliSessionEvents] returns an
    object with that array, the same events in the same order, as its only
    property. *)
Theorem fetchCliSessionEvents_delivers_events appId authToken sessionId t evs :
  let r := GeneratedClient t (events_request appId authToken sessionId) in
  truthy (errors r) = false →
  (data r)?."oneGraph"?."netlifyCliSession"?."events" = VArr evs →
  fst (fetchCliSessionEvents GeneratedClient appId authToken sessionId t)
  = Returns (VObj [("events", VArr evs)]).
Proof.
  intros r Herr Hev. rewrite fetchCliSessionEvents_run. fold r.
  simpl. by rewrite Herr, Hev.
Qed.

(** X10: nothing to deliver.  When the envelope has no (truthy) errors and no
    (truthy) [events] under its session (null data, no session, a session
    without events), [fetchCliSessionEvents] returns [{events: []}]. *)
Theorem fetchCliSessionEvents_defaults_to_empty appId authToken sessionId t :
  let r := GeneratedClient t (events_request appId authToken sessionId) in
  truthy (errors r) = false →
  truthy ((data r)?."oneGraph"?."netlifyCliSession"?."events") = false →
  fst (fetchCliSessionEvents GeneratedClient appId authToken sessionId t)
  = Returns (VObj [("events", VArr [])]).
Proof.
  intros r Herr Hev. rewrite fetchCliSessionEvents_run. fold r.
  simpl. rewrite Herr. unfold or_else. by rewrite Hev.
Qed.

(** X11: null or undefined [data].  When the transport answers without data,
    every wrapper that returns the unwrapped payload returns [undefined]
    (optional chaining: none throws), [fetchCliSession] returns the empty
    array as session, and the two status calls return [undefined] as
    [data]. *)
Theorem wrappers_on_missing_data t :
  (∀ req, nullish (data (GeneratedClient t req)) = true) →
  (∀ authToken appId docId,
     fst (fetchPersistedQuery GeneratedClient authToken appId docId t)
     = Returns VUndefined)
  ∧ (∀ netlifyToken appId name metadata,
       fst (createCLISession GeneratedClient netlifyToken appId name metadata t)
       = Returns VUndefined)
  ∧ (∀ netlifyToken appId sessionId metadata,
       fst (updateCLISessionMetadata GeneratedClient
              netlifyToken appId sessionId metadata t)
       = Returns VUndefined)
  ∧ (∀ input, fst (ackCLISessionEvents GeneratedClient input t)
              = Returns VUndefined)
  ∧ (∀ netlifyToken input,
       fst (createPersistedQuery GeneratedClient netlifyToken input t)
       = Returns VUndefined)
  ∧ (∀ authToken siteId,
       fst (fetchAppSchema GeneratedClient authToken siteId t)
       = Returns VUndefined)
  ∧ (∀ authToken siteId,
       fst (upsertAppForSite GeneratedClient authToken siteId t)
       = Returns VUndefined)
  ∧ (∀ nfToken input,
       fst (createNewAppSchema GeneratedClient nfToken input t)
       = Returns VUndefined)
  ∧ (∀ authToken appId,
       fst (fetchEnabledServices GeneratedClient authToken appId t)
       = Returns VUndefined)
  ∧ (∀ options, ∃ errs,
       fst (fetchCliSession GeneratedClient options t)
       = Returns (VObj [("session", VArr []); ("errors", errs)]))
  ∧ (∀ authToken appId sessionId, ∃ errs,
       fst (executeMarkCliSessionActiveHeartbeat GeneratedClient
              authToken appId sessionId t)
       = Returns (VObj [("errors", errs); ("data", VUndefined)]))
  ∧ (∀ authToken appId sessionId, ∃ errs,
       fst (executeMarkCliSessionInactive GeneratedClient
              authToken appId sessionId t)
       = Returns (VObj [("errors", errs); ("data", VUndefined)])).
Proof.
  intros Hnull.
  repeat split; intros;
    unfold fetchPersistedQuery, createCLISession, updateCLISessionMetadata,
      ackCLISessionEvents, createPersistedQuery, fetchAppSchema,
      upsertAppForSite, createNewAppSchema, fetchEnabledServices,
      fetchCliSession, executeMarkCliSessionActiveHeartbeat,
      executeMarkCliSessionInactive; run;
    try eexists;
    rewrite (optget_nullish _ "oneGraph") by apply Hnull; reflexivity.
Qed.

End ClientExtras.

Lemma fetchCliSessionEvents_delivers_events_witness :
  fst (fetchCliSessionEvents session_client "site" "token" "session" [])
  = Returns (VObj [("events", VArr two_events)]).
Proof.
  apply (fetchCliSessionEvents_delivers_events session_client
           "site" "token" "session" [] two_events); reflexivity.
Defined.

Lemma fetchCliSessionEvents_defaults_to_empty_witness :
  fst (fetchCliSessionEvents quiet_client "site" "token" "session" [])
  = Returns (VObj [("events", VArr [])]).
Proof.
  apply (fetchCliSessionEvents_defaults_to_empty quiet_client
           "site" "token" "session" []); reflexivity.
Defined.

Lemma wrappers_on_missing_data_witness :
  fst (ackCLISessionEvents failing_client
         (mkAckInput "site" "token" "session" ["event-1"]) [])
  = Returns VUndefined.
Proof.
  apply (wrappers_on_missing_data failing_client []).
  intros req. reflexivity.
Defined.

Section ClientCalls.

Variable GeneratedClient : trace → Request → RpcResult.

(** X12: one call each.  Every wrapper but [ensureAppForSite] extends the
    trace by exactly one call of its own operation and by nothing else (no
    retry, no console line).  The persisted-query lookup and the upsert are
    routed to the fixed [ONEDASH_APP_ID] whatever app the caller names,
    [fetchEnabledServices] sends no routing context, and the others route to
    the caller's app or site id. *)
Theorem wrappers_make_one_call t :
  (∀ authToken appId docId, ∃ vars,
     snd (fetchPersistedQuery GeneratedClient authToken appId docId t)
     = t ++ [Rpc (mkRequest fetchPersistedQueryQuery vars
                    (Some [("siteId", VStr ONEDASH_APP_ID)]))])
  ∧ (∀ options, ∃ vars,
       snd (fetchCliSession GeneratedClient options t)
       = t ++ [Rpc (mkRequest fetchCLISessionQuery vars
                      (Some [("siteId", VStr (appId options))]))])
  ∧ (∀ appId authToken sessionId, ∃ vars,
       snd (fetchCliSessionEvents GeneratedClient appId authToken sessionId t)
       = t ++ [Rpc (mkRequest fetchCLISessionQuery vars
                      (Some [("siteId", VStr appId)]))])
  ∧ (∀ netlifyToken appId name metadata, ∃ vars,
       snd (createCLISession GeneratedClient netlifyToken appId name metadata t)
       = t ++ [Rpc (mkRequest executeCreateCLISessionMutation vars
                      (Some [("siteId", VStr appId)]))])
  ∧ (∀ netlifyToken appId sessionId metadata, ∃ vars,
       snd (updateCLISessionMetadata GeneratedClient
              netlifyToken appId sessionId metadata t)
       = t ++ [Rpc (mkRequest executeUpdateCLISessionMetadataMutation vars
                      (Some [("siteId", VStr appId)]))])
  ∧ (∀ input, ∃ vars,
       snd (ackCLISessionEvents GeneratedClient input t)
       = t ++ [Rpc (mkRequest executeAckCLISessionEventMutation vars
                      (Some [("siteId", VStr (ack_appId input))]))])
  ∧ (∀ netlifyToken input, ∃ vars,
       snd (createPersistedQuery GeneratedClient netlifyToken input t)
       = t ++ [Rpc (mkRequest executeCreatePersistedQueryMutation vars
                      (Some [("siteId", VStr (pq_appId input))]))])
  ∧ (∀ authToken siteId, ∃ vars,
       snd (fetchAppSchema GeneratedClient authToken siteId t)
       = t ++ [Rpc (mkRequest fetchAppSchemaQuery vars
                      (Some [("siteId", VStr siteId)]))])
  ∧ (∀ authToken siteId, ∃ vars,
       snd (upsertAppForSite GeneratedClient authToken siteId t)
       = t ++ [Rpc (mkRequest executeUpsertAppForSiteMutation vars
                      (Some [("siteId", VStr ONEDASH_APP_ID)]))])
  ∧ (∀ nfToken input, ∃ vars,
       snd (createNewAppSchema GeneratedClient nfToken input t)
       = t ++ [Rpc (mkRequest executeCreateNewSchemaMutation vars
                      (Some [("siteId", lookup_prop "appId" input)]))])
  ∧ (∀ authToken appId, ∃ vars,
       snd (fetchEnabledServices GeneratedClient authToken appId t)
       = t ++ [Rpc (mkRequest fetchAppSchemaQuery vars None)])
  ∧ (∀ authToken appId sessionId, ∃ vars,
       snd (executeMarkCliSessionActiveHeartbeat GeneratedClient
              authToken appId sessionId t)
       = t ++ [Rpc (mkRequest executeMarkCLISessionActiveHeartbeat vars
                      (Some [("siteId", VStr appId)]))])
  ∧ (∀ authToken appId sessionId, ∃ vars,
       snd (executeMarkCliSessionInactive GeneratedClient
              authToken appId sessionId t)
       = t ++ [Rpc (mkRequest executeMarkCLISessionInactive vars
                      (Some [("siteId", VStr appId)]))]).
Proof.
  repeat split; intros; try (eexists; reflexivity).
  rewrite fetchCliSessionEvents_run. eexists. reflexivity.
Qed.

(** How [ensureAppForSite] threads the app id: the schema query is sent
    after the upsert, without routing context, and its [appId] variable is
    the [id] of the app in the upsert's answer, not the [siteId] argument. *)
Lemma ensureAppForSite_run authToken siteId t :
  let upsert :=
    mkRequest executeUpsertAppForSiteMutation
      [("nfToken", VStr authToken); ("siteId", VStr siteId)] None in
  let appId :=
    (data (GeneratedClient t upsert))
      ?."oneGraph"?."upsertAppForNetlifySite"?."app"?."id" in
  ensureAppForSite GeneratedClient authToken siteId t
  = (Returns VUndefined,
     t ++ [Rpc upsert;
           Rpc (mkRequest fetchAppSchemaQuery
                  [("nfToken", VStr authToken); ("appId", appId)] None)]).
Proof.
  intros upsert appId.
  unfold ensureAppForSite, mbind, M_bind, bind, mret, M_ret, ret, call.
  simpl. by rewrite <- app_assoc.
Qed.

(** X13: a failed upsert does not stop [ensureAppForSite].  When the upsert
    is answered without data, the schema query is sent all the same, with
    [undefined] as its [appId] variable, and the function returns normally:
    the failure is neither reported nor acted on. *)
Theorem ensureAppForSite_after_failed_upsert authToken siteId t :
  let upsert :=
    mkRequest executeUpsertAppForSiteMutation
      [("nfToken", VStr authToken); ("siteId", VStr siteId)] None in
  nullish (data (GeneratedClient t upsert)) = true →
  ensureAppForSite GeneratedClient authToken siteId t
  = (Returns VUndefined,
     t ++ [Rpc upsert;
           Rpc (mkRequest fetchAppSchemaQuery
                  [("nfToken", VStr authToken); ("appId", VUndefined)] None)]).
Proof.
  intros upsert Hnull. rewrite ensureAppForSite_run. fold upsert.
  by rewrite (optget_nullish _ "oneGraph").
Qed.

(** X14: with an app in the upsert's answer, the schema query of
    [ensureAppForSite] asks for that app's [id], whatever the [siteId]
    argument is. *)
Theorem ensureAppForSite_queries_upserted_app authToken siteId t app :
  let upsert :=
    mkRequest executeUpsertAppForSiteMutation
      [("nfToken", VStr authToken); ("siteId", VStr siteId)] None in
  (data (GeneratedClient t upsert))?."oneGraph"?."upsertAppForNetlifySite"?."app"
  = VObj app →
  snd (ensureAppForSite GeneratedClient authToken siteId t)
  = t ++ [Rpc upsert;
          Rpc (mkRequest fetchAppSchemaQuery
                 [("nfToken", VStr authToken);
                  ("appId", lookup_prop "id" app)] None)].
Proof.
  intros upsert Happ. rewrite ensureAppForSite_run. fold upsert.
  by rewrite Happ.
Qed.

(** X15: [fetchEnabledServices] is [fetchAppSchema] followed by [?.services],
    as long as the transport answers the schema query alike with and
    without the routing context (the one difference between the calls the
    two functions make). *)
Theorem fetchEnabledServices_of_fetchAppSchema authToken appId t :
  let vars := [("nfToken", VStr authToken); ("appId", VStr appId)] in
  data (GeneratedClient t (mkRequest fetchAppSchemaQuery vars None))
  = data (GeneratedClient t (mkRequest fetchAppSchemaQuery vars
                               (Some [("siteId", VStr appId)]))) →
  ∃ schema,
    fst (fetchAppSchema GeneratedClient authToken appId t) = Returns schema
    ∧ fst (fetchEnabledServices GeneratedClient authToken appId t)
      = Returns schema?."services".
Proof.
  intros vars Hsame. eexists. split; [reflexivity|].
  unfold fetchEnabledServices, mbind, M_bind, bind, mret, M_ret, ret, call.
  simpl. fold vars. by rewrite Hsame.
Qed.

End ClientCalls.

Lemma fetchEnabledServices_of_fetchAppSchema_witness :
  ∃ schema,
    fst (fetchAppSchema schema_client "token" "site" []) = Returns schema
    ∧ fst (fetchEnabledServices schema_client "token" "site" [])
      = Returns schema?."services".
Proof.
  apply (fetchEnabledServices_of_fetchAppSchema schema_client "token" "site" []).
  reflexivity.
Defined.

Lemma ensureAppForSite_after_failed_upsert_witness :
  ensureAppForSite failing_client "token" "site" []
  = (Returns VUndefined,
     [] ++ [Rpc (mkRequest executeUpsertAppForSiteMutation
                   [("nfToken", VStr "token"); ("siteId", VStr "site")] None);
            Rpc (mkRequest fetchAppSchemaQuery
                   [("nfToken", VStr "token"); ("appId", VUndefined)] None)]).
Proof.
  apply (ensureAppForSite_after_failed_upsert failing_client "token" "site" []).
  reflexivity.
Defined.

Lemma ensureAppForSite_queries_upserted_app_witness :
  snd (ensureAppForSite upsert_client "token" "site" [])
  = [] ++ [Rpc (mkRequest executeUpsertAppForSiteMutation
                  [("nfToken", VStr "token"); ("siteId", VStr "site")] None);
           Rpc (mkRequest fetchAppSchemaQuery
                  [("nfToken", VStr "token"); ("appId", VStr "app-7")] None)].
Proof.
  apply (ensureAppForSite_queries_upserted_app upsert_client "token" "site" []
           [("id", VStr "app-7")]).
  reflexivity.
Defined.

(** * Further properties of the schema fetch *)

Section SchemaExtras.

Variable fetch : trace → string → HttpOutcome.
Variable JSON_parse : string → outcome value.
Variable JSON_stringify : exn → outcome string.
Variable GraphQLSchema : Type.
Variable buildClientSchema : value → outcome GraphQLSchema.

Ltac run_schema :=
  unfold fetchOneGraphSchema, fetchOneGraphSchemaJson, try_catch, fetch_text,
    mbind, M_bind, bind, mret, M_ret, ret, lift, internalConsole.error, emit.

(** X16: as long as [JSON.stringify] does not throw on the caught error,
    [fetchOneGraphSchemaJson] never throws, whatever [fetch] and
    [JSON.parse] do; it makes exactly one GET, of the schema URL, and writes
    at most one console line after it. *)
Theorem fetchOneGraphSchemaJson_never_throws appId enabledServices t :
  let url := schema_url appId enabledServices in
  (∀ error, ∃ text, JSON_stringify error = Returns text) →
  ∃ result,
    fst (fetchOneGraphSchemaJson fetch JSON_parse JSON_stringify
           appId enabledServices t) = Returns result
    ∧ (snd (fetchOneGraphSchemaJson fetch JSON_parse JSON_stringify
              appId enabledServices t) = t ++ [HttpGet url]
       ∨ ∃ line,
           result = VUndefined
           ∧ snd (fetchOneGraphSchemaJson fetch JSON_parse JSON_stringify
                    appId enabledServices t)
             = t ++ [HttpGet url; ConsoleError line]).
Proof.
  intros url Hprint. run_schema. fold url.
  destruct (fetch t url) as [e|e|text]; simpl;
    [| |destruct (JSON_parse text) as [v|e]; simpl];
    try (destruct (Hprint e) as [line ->]; simpl);
    eexists; (split; [reflexivity|]);
    first [ left; reflexivity
          | right; eexists; split; [reflexivity|]; by rewrite <- app_assoc ].
Qed.

(** X17: on success [fetchOneGraphSchemaJson] returns what [JSON.parse]
    makes of the body, unchanged, and writes nothing to the console. *)
Theorem fetchOneGraphSchemaJson_success appId enabledServices t text v :
  let url := schema_url appId enabledServices in
  fetch t url = Body text →
  JSON_parse text = Returns v →
  fetchOneGraphSchemaJson fetch JSON_parse JSON_stringify appId enabledServices t
  = (Returns v, t ++ [HttpGet url]).
Proof.
  intros url Hbody Hparse. run_schema. fold url.
  by rewrite Hbody, Hparse.
Qed.

(** X18: on a body that parses to a value other than [null] (and
    [undefined], which [JSON.parse] never gives), [fetchOneGraphSchema]
    is [buildClientSchema] applied to the [data] property of the parsed
    body ([undefined] when the body has none): it returns the schema built,
    or throws what [buildClientSchema] throws. *)
Theorem fetchOneGraphSchema_builds_from_data appId enabledServices t text v :
  let url := schema_url appId enabledServices in
  fetch t url = Body text →
  JSON_parse text = Returns v →
  nullish v = false →
  fetchOneGraphSchema fetch JSON_parse JSON_stringify GraphQLSchema
    buildClientSchema appId enabledServices t
  = (buildClientSchema (prop v "data"), t ++ [HttpGet url]).
Proof.
  intros url Hbody Hparse Hv. run_schema. fold url.
  rewrite Hbody, Hparse. by destruct v.
Qed.

(** X19: a body that is the JSON text [null] parses without error, so
    nothing is caught or logged, and [fetchOneGraphSchema] throws a
    [TypeError] on reading [.data] of [null]. *)
Theorem fetchOneGraphSchema_throws_on_null_body appId enabledServices t text :
  let url := schema_url appId enabledServices in
  fetch t url = Body text →
  JSON_parse text = Returns VNull →
  fetchOneGraphSchemaJson fetch JSON_parse JSON_stringify appId enabledServices t
  = (Returns VNull, t ++ [HttpGet url])
  ∧ fetchOneGraphSchema fetch JSON_parse JSON_stringify GraphQLSchema
      buildClientSchema appId enabledServices t
    = (Throws (TypeError "Cannot read properties of null (reading 'data')"),
       t ++ [HttpGet url]).
Proof.
  intros url Hbody Hparse. run_schema. fold url.
  by rewrite Hbody, Hparse.
Qed.

(** X20: when the fetch or the parse fails with an error that
    [JSON.stringify] turns into a [text], [fetchOneGraphSchema] first writes
    the one console line of [fetchOneGraphSchemaJson] and then throws the
    [TypeError]; [buildClientSchema] is not reached. *)
Theorem fetchOneGraphSchema_logs_then_throws
    appId enabledServices t error text :
  let url := schema_url appId enabledServices in
  let line := "Error fetching schema: " +:+ text in
  (fetch t url = FetchRejects error
   ∨ fetch t url = TextRejects error
   ∨ ∃ body, fetch t url = Body body ∧ JSON_parse body = Throws error) →
  JSON_stringify error = Returns text →
  fetchOneGraphSchema fetch JSON_parse JSON_stringify GraphQLSchema
    buildClientSchema appId enabledServices t
  = (Throws (TypeError "Cannot read properties of undefined (reading 'data')"),
     t ++ [HttpGet url; ConsoleError line]).
Proof.
  intros url line Hfail Htext. run_schema. fold url.
  destruct Hfail as [H | [H | (body & H & Hparse)]]; rewrite H;
    try rewrite Hparse; rewrite Htext; simpl; by rewrite <- app_assoc.
Qed.

End SchemaExtras.

Lemma fetchOneGraphSchemaJson_success_witness :
  fetchOneGraphSchemaJson (serving "{}") parse_known stringify_empty
    "site" ["ONEGRAPH"] []
  = (Returns (VObj []), [] ++ [HttpGet (schema_url "site" ["ONEGRAPH"])]).
Proof.
  apply (fetchOneGraphSchemaJson_success (serving "{}") parse_known
           stringify_empty "site" ["ONEGRAPH"] [] "{}" (VObj []));
    reflexivity.
Defined.

Lemma fetchOneGraphSchema_builds_from_data_witness :
  fetchOneGraphSchema (serving "{}") parse_known stringify_empty
    value (fun d => Returns d) "site" ["ONEGRAPH"] []
  = (Returns (prop (VObj []) "data"),
     [] ++ [HttpGet (schema_url "site" ["ONEGRAPH"])]).
Proof.
  apply (fetchOneGraphSchema_builds_from_data (serving "{}") parse_known
           stringify_empty value (fun d => Returns d)
           "site" ["ONEGRAPH"] [] "{}" (VObj []));
    reflexivity.
Defined.

Lemma fetchOneGraphSchema_throws_on_null_body_witness :
  fetchOneGraphSchemaJson (serving "null") parse_known stringify_empty
    "site" ["ONEGRAPH"] []
  = (Returns VNull, [] ++ [HttpGet (schema_url "site" ["ONEGRAPH"])])
  ∧ fetchOneGraphSchema (serving "null") parse_known stringify_empty
      value (fun d => Returns d) "site" ["ONEGRAPH"] []
    = (Throws (TypeError "Cannot read properties of null (reading 'data')"),
       [] ++ [HttpGet (schema_url "site" ["ONEGRAPH"])]).
Proof.
  apply (fetchOneGraphSchema_throws_on_null_body (serving "null") parse_known
           stringify_empty value (fun d => Returns d)
           "site" ["ONEGRAPH"] [] "null");
    reflexivity.
Defined.

Lemma fetchOneGraphSchema_logs_then_throws_witness :
  fetchOneGraphSchema unreachable_host parse_known stringify_empty
    value (fun d => Returns d) "site" ["ONEGRAPH"] []
  = (Throws (TypeError "Cannot read properties of undefined (reading 'data')"),
     [] ++ [HttpGet (schema_url "site" ["ONEGRAPH"]);
            ConsoleError "Error fetching schema: {}"]).
Proof.
  apply (fetchOneGraphSchema_logs_then_throws unreachable_host parse_known
           stringify_empty value (fun d => Returns d) "site" ["ONEGRAPH"] []
           (FetchError "getaddrinfo ENOTFOUND serve.onegraph.com") "{}").
  - left. reflexivity.
  - reflexivity.
Defined.

Lemma fetchOneGraphSchemaJson_never_throws_witness :
  ∃ result,
    fst (fetchOneGraphSchemaJson unreachable_host parse_known stringify_empty
           "site" ["ONEGRAPH"] []) = Returns result
    ∧ (snd (fetchOneGraphSchemaJson unreachable_host parse_known
              stringify_empty "site" ["ONEGRAPH"] [])
       = [] ++ [HttpGet (schema_url "site" ["ONEGRAPH"])]
       ∨ ∃ line,
           result = VUndefined
           ∧ snd (fetchOneGraphSchemaJson unreachable_host parse_known
                    stringify_empty "site" ["ONEGRAPH"] [])
             = [] ++ [HttpGet (schema_url "site" ["ONEGRAPH"]);
                      ConsoleError line]).
Proof.
  apply (fetchOneGraphSchemaJson_never_throws unreachable_host parse_known
           stringify_empty "site" ["ONEGRAPH"] []).
  intros error. exists "{}". reflexivity.
Defined.
